(** * cpp-example: the meta-selftest C++ fixture

    A shallow embedding of the four source files under
    [meta-selftest/recipes-test/cpp/files]:

    - [cpp-example-lib.hpp]  : the declaration of [struct CppExample];
    - [cpp-example-lib.cpp]  : its two member functions;
    - [cpp-example.cpp]      : the demonstration program;
    - [test-cpp-example.cpp] : the verification program.

    A process is modelled by its static storage (the one static data member
    [CppExample::test_string]) and by the text written to standard output.
    Code runs in a small state monad over that process. *)

From Stdlib Require Import String Ascii ZArith List Bool Lia.
Import ListNotations.

Local Open Scope string_scope.
Local Open Scope Z_scope.

(** ** Values *)

(** [const char*] as json-c hands it out: a pointer to a NUL-terminated array
    with static storage duration, represented by the characters before the
    terminator. *)
Definition c_string : Type := string.

(** [std::string::compare]: negative, zero or positive as [a] orders before,
    equal to or after [b], characters compared as unsigned bytes and a proper
    prefix ordering first.  Only the sign is fixed by the language; the
    representatives -1, 0, 1 are used here. *)
Definition string_compare (a b : string) : Z :=
  match String.compare a b with
  | Eq => 0
  | Lt => -1
  | Gt => 1
  end.

(** ** The process *)

Record process : Type := mkProcess {
  test_string : string;   (* storage of [CppExample::test_string] *)
  cout : string           (* everything written to standard output so far *)
}.

(** The initializer of [test_string] in [cpp-example-lib.hpp]. *)
Definition test_string_init : string := "cpp-example-lib Magic: 123456789".

(** The process when [main] is entered: statics initialized, nothing written. *)
Definition process_start : process :=
  {| test_string := test_string_init; cout := EmptyString |}.

Definition with_cout (s : process) (out : string) : process :=
  {| test_string := test_string s; cout := out |}.

(** ** The monad of C++ code *)

Definition M (A : Type) : Type := process -> A * process.

Definition ret {A : Type} (a : A) : M A := fun s => (a, s).

Definition bind {A B : Type} (m : M A) (k : A -> M B) : M B :=
  fun s => let (a, s') := m s in k a s'.

Declare Scope cpp_scope.
Delimit Scope cpp_scope with cpp.
Notation "x <- m ;; k" := (bind m (fun x => k))
  (at level 61, m at next level, right associativity) : cpp_scope.
Notation "m ;; k" := (bind m (fun _ => k))
  (at level 61, right associativity) : cpp_scope.
Local Open Scope cpp_scope.

(** Reading the static data member (an lvalue-to-rvalue use of
    [CppExample::test_string]).  It is [const]: there is no store. *)
Definition load_test_string : M string := fun s => (test_string s, s).

(** [std::cout << txt] for a [std::string] or a string literal. *)
Definition cout_put (txt : string) : M unit :=
  fun s => (tt, with_cout s (cout s ++ txt)).

(** [std::cout << p] for a [const char*]: the characters up to the NUL. *)
Definition cout_put_cstr (p : c_string) : M unit := cout_put p.

(** The line feed character. *)
Definition LF : string := String (ascii_of_nat 10) EmptyString.

(** [std::cout << std::endl]: a line feed, then a flush. *)
Definition endl : M unit := cout_put LF.

(** Flowing off the end of [main] without a [return] is [return 0]. *)
Definition main_result (r : option Z) : Z :=
  match r with
  | Some code => code
  | None => 0
  end.

(** ** cpp-example-lib.hpp *)

(** [struct CppExample] has no non-static data member. *)
Record CppExample : Type := mkCppExample { }.

(** The two member functions the header declares.  A consumer program is
    compiled against these declarations only and linked with a definition. *)
Module cpp_example_lib_hpp.

Class members : Type := {
  get_string : CppExample -> M string;
  get_json_c_version : CppExample -> M c_string
}.

End cpp_example_lib_hpp.

(** ** cpp-example-lib.cpp *)

Module cpp_example_lib.
Section WithJsonC.

(** The external [json_c_version()] of [<json-c/json.h>]. *)
Variable json_c_version : unit -> c_string.

Definition get_string (this : CppExample) : M string :=
  load_test_string.

Definition get_json_c_version (this : CppExample) : M c_string :=
  ret (json_c_version tt).

(** The definitions this translation unit gives to the linker. *)
Definition linked : cpp_example_lib_hpp.members := {|
  cpp_example_lib_hpp.get_string := get_string;
  cpp_example_lib_hpp.get_json_c_version := get_json_c_version
|}.

End WithJsonC.
End cpp_example_lib.

(** ** cpp-example.cpp *)

Module cpp_example.
Section Linked.
Import cpp_example_lib_hpp.
Context {lib : members}.

(** The operands of a chain of [<<] are evaluated left to right. *)
Definition main_body : M (option Z) :=
  let cpp_example := mkCppExample in
  cout_put "C++ example linking " ;;
  str <- get_string cpp_example ;;
  cout_put str ;;
  endl ;;
  cout_put "Linking json-c version " ;;
  version <- get_json_c_version cpp_example ;;
  cout_put_cstr version ;;
  endl ;;
  ret (Some 0).

Definition main : M Z :=
  r <- main_body ;; ret (main_result r).

End Linked.
End cpp_example.

(** ** test-cpp-example.cpp *)

Module test_cpp_example.
Section Linked.
Import cpp_example_lib_hpp.
Context {lib : members}.

Definition main_body : M (option Z) :=
  let cpp_example := mkCppExample in
  ret_string <- get_string cpp_example ;;
  expected <- load_test_string ;;
  if 0 =? string_compare ret_string expected then
    cout_put "PASS: " ;;
    cout_put ret_string ;;
    cout_put " = " ;;
    expected' <- load_test_string ;;
    cout_put expected' ;;
    endl ;;
    ret None
  else
    cout_put "FAIL: " ;;
    cout_put ret_string ;;
    cout_put " != " ;;
    expected' <- load_test_string ;;
    cout_put expected' ;;
    endl ;;
    ret (Some 1).

Definition main : M Z :=
  r <- main_body ;; ret (main_result r).

End Linked.
End test_cpp_example.

(** ** Runs *)

(** The library and both consumer programs, linked against one json-c. *)
Section Runs.
Variable json_c_version : unit -> c_string.

(** One observable step of a process: a call of a member function, a
    stream insertion performed by a consumer, or a whole consumer [main]. *)
Inductive step : process -> process -> Prop :=
| step_get_string this s :
    step s (snd (cpp_example_lib.get_string this s))
| step_get_json_c_version this s :
    step s (snd (cpp_example_lib.get_json_c_version json_c_version this s))
| step_cout_put txt s :
    step s (snd (cout_put txt s))
| step_cpp_example_main s :
    step s (snd (cpp_example.main (lib := cpp_example_lib.linked json_c_version) s))
| step_test_cpp_example_main s :
    step s (snd (test_cpp_example.main (lib := cpp_example_lib.linked json_c_version) s)).

(** The processes a run can be in: [process_start] and whatever steps
    lead to from there. *)
Inductive reachable : process -> Prop :=
| reachable_start : reachable process_start
| reachable_step s s' : reachable s -> step s s' -> reachable s'.

End Runs.

(** What a finished program leaves for its parent: exit status and output. *)
Definition outcome (r : Z * process) : Z * string := (fst r, cout (snd r)).

(** ** Lines of output *)

Definition is_LF (c : ascii) : bool := (nat_of_ascii c =? 10)%nat.

(** Number of line terminators in a text. *)
Fixpoint lf_count (s : string) : nat :=
  match s with
  | EmptyString => 0%nat
  | String c rest => ((if is_LF c then 1 else 0) + lf_count rest)%nat
  end.

(** The text cut at its line terminators; the last piece is what follows the
    last terminator (empty when the text ends with one). *)
Fixpoint lines_from (cur s : string) : list string :=
  match s with
  | EmptyString => [cur]
  | String c rest =>
      if is_LF c then cur :: lines_from EmptyString rest
      else lines_from (cur ++ String c EmptyString) rest
  end.

Definition lines (s : string) : list string := lines_from EmptyString s.

(** Modelled from the spec: the behaviour of the external [json_c_version()],
    whose definition belongs to json-c and is not part of these sources.  The
    spec requires that the string it returns is non-empty. *)
Definition json_c_version_nonempty (json_c_version : unit -> c_string) : Prop :=
  (0 < String.length (json_c_version tt))%nat.

(** ** Inputs of the example runs *)

(** A json-c that reports version 0.17. *)
Definition json_c_0_17 : unit -> c_string := fun _ => "0.17".


(** A definition of the member functions whose [get_string] does not return
    the static data member. *)
Definition tampered : cpp_example_lib_hpp.members := {|
  cpp_example_lib_hpp.get_string := fun _ => ret "cpp-example-lib Magic: 0";
  cpp_example_lib_hpp.get_json_c_version := fun _ => ret "0.17"
|}.

(** The process once the demonstration program has run against json-c 0.17. *)
Definition after_demo : process :=
  snd (cpp_example.main (lib := cpp_example_lib.linked json_c_0_17) process_start).

(** A definition of the member functions whose [get_string] is the
    library's and whose [get_json_c_version] writes to standard output
    before it answers. *)
Definition noisy : cpp_example_lib_hpp.members := {|
  cpp_example_lib_hpp.get_string := cpp_example_lib.get_string;
  cpp_example_lib_hpp.get_json_c_version :=
    fun _ => cout_put "json-c: loaded" ;; ret "9.99"
|}.

(** A process whose static data member holds another text. *)
Definition other_constant : process :=
  {| test_string := "another text"; cout := "earlier output" |}.

(** Not part of the sources: a program that, unlike the consumer programs,
    looks at the process it starts in.  It answers with the length of what
    standard output already holds. *)
Definition reads_back : M Z :=
  fun s => (Z.of_nat (String.length (cout s)), s).

(** * Properties *)

(** ** Strings *)

Lemma append_assoc (a b c : string) : (a ++ b) ++ c = a ++ (b ++ c).
Proof.
  induction a as [|ch a IH]; simpl.
  - reflexivity.
  - now rewrite IH.
Qed.

Lemma lf_count_append (a b : string) :
  lf_count (a ++ b) = (lf_count a + lf_count b)%nat.
Proof.
  induction a as [|ch a IH]; simpl.
  - reflexivity.
  - rewrite IH. lia.
Qed.

Lemma string_order_refl (a : string) : String.compare a a = Eq.
Proof.
  induction a as [|ch a IH]; simpl.
  - reflexivity.
  - unfold Ascii.compare. now rewrite N.compare_refl.
Qed.

Lemma string_compare_eq_iff (a b : string) :
  string_compare a b = 0 <-> a = b.
Proof.
  unfold string_compare. split.
  - destruct (String.compare a b) eqn:E; try discriminate.
    intros _. now apply String.compare_eq_iff.
  - intros ->. now rewrite string_order_refl.
Qed.

Lemma string_compare_refl (a : string) : string_compare a a = 0.
Proof. now apply string_compare_eq_iff. Qed.

(** ** The library *)

Lemma get_string_run (this : CppExample) (s : process) :
  cpp_example_lib.get_string this s = (test_string s, s).
Proof. reflexivity. Qed.

Lemma get_json_c_version_run jcv (this : CppExample) (s : process) :
  cpp_example_lib.get_json_c_version jcv this s = (jcv tt, s).
Proof. reflexivity. Qed.

(** ** Stream insertions *)

Lemma cout_put_run (txt : string) (s : process) :
  cout_put txt s = (tt, with_cout s (cout s ++ txt)).
Proof. reflexivity. Qed.

Lemma with_cout_twice (s : process) (a b : string) :
  with_cout (with_cout s a) b = with_cout s b.
Proof. reflexivity. Qed.

Lemma with_cout_test_string (s : process) (out : string) :
  test_string (with_cout s out) = test_string s.
Proof. reflexivity. Qed.

Lemma with_cout_cout (s : process) (out : string) :
  cout (with_cout s out) = out.
Proof. reflexivity. Qed.

(** Unfold one monadic statement at a time, keeping texts as they are
    written in the program. *)
Ltac run_stmt :=
  unfold bind, ret, endl, cout_put_cstr, load_test_string;
  repeat rewrite cout_put_run;
  repeat (rewrite with_cout_twice || rewrite with_cout_cout
          || rewrite with_cout_test_string);
  repeat rewrite append_assoc.

(** ** The demonstration program *)

Lemma cpp_example_main_run jcv (s : process) :
  cpp_example.main (lib := cpp_example_lib.linked jcv) s =
  (0, with_cout s (cout s ++ "C++ example linking " ++ test_string s ++ LF
                          ++ "Linking json-c version " ++ jcv tt ++ LF)).
Proof.
  unfold cpp_example.main, cpp_example.main_body. simpl cpp_example_lib_hpp.get_string.
  simpl cpp_example_lib_hpp.get_json_c_version.
  unfold cpp_example_lib.get_string, cpp_example_lib.get_json_c_version.
  run_stmt. reflexivity.
Qed.

(** ** The verification program *)

Section TestMain.
Import cpp_example_lib_hpp.
Context (lib : members).

Lemma test_main_pass (s s1 : process) (ret_string : string) :
  get_string mkCppExample s = (ret_string, s1) ->
  ret_string = test_string s1 ->
  test_cpp_example.main s =
  (0, with_cout s1 (cout s1 ++ "PASS: " ++ ret_string ++ " = "
                            ++ test_string s1 ++ LF)).
Proof.
  intros Hcall Heq.
  unfold test_cpp_example.main, test_cpp_example.main_body, bind at 1 2.
  rewrite Hcall. unfold bind at 1, load_test_string at 1.
  rewrite <- Heq, string_compare_refl. simpl (0 =? 0).
  run_stmt. rewrite <- Heq. reflexivity.
Qed.

Lemma test_main_fail (s s1 : process) (ret_string : string) :
  get_string mkCppExample s = (ret_string, s1) ->
  ret_string <> test_string s1 ->
  test_cpp_example.main s =
  (1, with_cout s1 (cout s1 ++ "FAIL: " ++ ret_string ++ " != "
                            ++ test_string s1 ++ LF)).
Proof.
  intros Hcall Hne.
  unfold test_cpp_example.main, test_cpp_example.main_body, bind at 1 2.
  rewrite Hcall. unfold bind at 1, load_test_string at 1.
  destruct (0 =? string_compare ret_string (test_string s1)) eqn:E.
  - apply Z.eqb_eq in E. symmetry in E.
    apply string_compare_eq_iff in E. contradiction.
  - run_stmt. reflexivity.
Qed.

End TestMain.

Lemma test_cpp_example_main_run jcv (s : process) :
  test_cpp_example.main (lib := cpp_example_lib.linked jcv) s =
  (0, with_cout s (cout s ++ "PASS: " ++ test_string s ++ " = "
                          ++ test_string s ++ LF)).
Proof.
  apply (test_main_pass (cpp_example_lib.linked jcv) s s (test_string s));
    reflexivity.
Qed.

(** ** The static data member is never written *)

Lemma step_test_string jcv (s s' : process) :
  step jcv s s' -> test_string s' = test_string s.
Proof.
  intros H. destruct H.
  - reflexivity.
  - reflexivity.
  - reflexivity.
  - now rewrite cpp_example_main_run.
  - now rewrite test_cpp_example_main_run.
Qed.

Lemma reachable_test_string jcv (s : process) :
  reachable jcv s -> test_string s = test_string_init.
Proof.
  induction 1 as [|s s' _ IH Hstep].
  - reflexivity.
  - rewrite (step_test_string jcv s s' Hstep). exact IH.
Qed.

Lemma reachable_after_step jcv (s s' : process) :
  reachable jcv s -> step jcv s s' -> reachable jcv s'.
Proof. intros Hs Hstep. exact (reachable_step jcv s s' Hs Hstep). Qed.

(** ** Example runs *)

Lemma after_demo_reachable : reachable json_c_0_17 after_demo.
Proof.
  apply (reachable_after_step json_c_0_17 process_start).
  - apply reachable_start.
  - apply step_cpp_example_main.
Qed.

Example demo_output_0_17 :
  outcome (cpp_example.main (lib := cpp_example_lib.linked json_c_0_17) process_start)
  = (0, "C++ example linking cpp-example-lib Magic: 123456789" ++ LF
        ++ "Linking json-c version 0.17" ++ LF).
Proof. reflexivity. Qed.

Example test_output_0_17 :
  outcome (test_cpp_example.main (lib := cpp_example_lib.linked json_c_0_17) process_start)
  = (0, "PASS: cpp-example-lib Magic: 123456789 = cpp-example-lib Magic: 123456789" ++ LF).
Proof. reflexivity. Qed.

Example test_output_tampered :
  outcome (test_cpp_example.main (lib := tampered) process_start)
  = (1, "FAIL: cpp-example-lib Magic: 0 != cpp-example-lib Magic: 123456789" ++ LF).
Proof. reflexivity. Qed.

(** * Specified properties *)

(** C1: for every instance of [CppExample], at every point of a run,
    [get_string()] returns exactly "cpp-example-lib Magic: 123456789", which
    is the value of [CppExample::test_string], and leaves the process as it
    found it. *)
Theorem get_string_returns_constant
  jcv (this : CppExample) (s : process) (Hrun : reachable jcv s) :
  cpp_example_lib.get_string this s = ("cpp-example-lib Magic: 123456789", s)
  /\ fst (cpp_example_lib.get_string this s) = test_string s.
Proof.
  rewrite get_string_run. split; [|reflexivity].
  now rewrite (reachable_test_string jcv s Hrun).
Qed.

Lemma get_string_returns_constant_witness :
  reachable json_c_0_17 after_demo
  /\ cpp_example_lib.get_string mkCppExample after_demo
     = ("cpp-example-lib Magic: 123456789", after_demo).
Proof.
  split.
  - exact after_demo_reachable.
  - exact (proj1 (get_string_returns_constant json_c_0_17 mkCppExample
                    after_demo after_demo_reachable)).
Defined.

(** C4: whatever the external [json_c_version()] returns,
    [CppExample::get_json_c_version()] returns that same result, and does
    nothing else. *)
Theorem get_json_c_version_forwards jcv (this : CppExample) (s : process) :
  cpp_example_lib.get_json_c_version jcv this s = (jcv tt, s).
Proof. apply get_json_c_version_run. Qed.

(** C5: when the external accessor keeps its contract of returning a
    non-empty string, the string [get_json_c_version()] hands to its caller
    is non-empty. *)
Theorem get_json_c_version_nonempty
  jcv (this : CppExample) (s : process) (Hext : json_c_version_nonempty jcv) :
  (0 < String.length (fst (cpp_example_lib.get_json_c_version jcv this s)))%nat
  /\ fst (cpp_example_lib.get_json_c_version jcv this s) <> EmptyString.
Proof.
  rewrite get_json_c_version_run. simpl fst.
  unfold json_c_version_nonempty in Hext. split; [exact Hext|].
  intros E. rewrite E in Hext. simpl in Hext. lia.
Qed.

Lemma get_json_c_version_nonempty_witness :
  json_c_version_nonempty json_c_0_17
  /\ (0 < String.length
            (fst (cpp_example_lib.get_json_c_version json_c_0_17 mkCppExample
                    process_start)))%nat.
Proof.
  assert (H : json_c_version_nonempty json_c_0_17)
    by (unfold json_c_version_nonempty; simpl; lia).
  split.
  - exact H.
  - exact (proj1 (get_json_c_version_nonempty json_c_0_17 mkCppExample
                    process_start H)).
Defined.

(** C2: in every run of the verification program in which [get_string()]
    returns a value equal to [CppExample::test_string], the program writes
    the one line
    [PASS: cpp-example-lib Magic: 123456789 = cpp-example-lib Magic: 123456789]
    to standard output and exits with code 0. *)
Theorem test_main_prints_PASS
  (lib : cpp_example_lib_hpp.members) (s s1 : process) (ret_string : string)
  (Hcall : cpp_example_lib_hpp.get_string mkCppExample s = (ret_string, s1))
  (Hinit : test_string s1 = test_string_init)
  (Heq : ret_string = test_string s1) :
  let line :=
    "PASS: cpp-example-lib Magic: 123456789 = cpp-example-lib Magic: 123456789" in
  test_cpp_example.main s = (0, with_cout s1 (cout s1 ++ line ++ LF))
  /\ String.prefix "PASS" line = true
  /\ lf_count (line ++ LF) = 1%nat.
Proof.
  intros line. split; [|split; reflexivity].
  rewrite (test_main_pass lib s s1 ret_string Hcall Heq).
  rewrite Heq, Hinit. reflexivity.
Qed.

Lemma test_main_prints_PASS_witness :
  outcome (test_cpp_example.main (lib := cpp_example_lib.linked json_c_0_17)
             after_demo)
  = (0, cout after_demo
        ++ "PASS: cpp-example-lib Magic: 123456789 = cpp-example-lib Magic: 123456789"
        ++ LF).
Proof.
  rewrite (proj1 (test_main_prints_PASS (cpp_example_lib.linked json_c_0_17)
                    after_demo after_demo "cpp-example-lib Magic: 123456789"
                    eq_refl eq_refl eq_refl)).
  reflexivity.
Defined.

(** C3: in every run of the verification program in which the value returned
    by [get_string()] differs from [CppExample::test_string], the program
    writes [FAIL: <returned> != <test_string>] and one line terminator to
    standard output and exits with code 1. *)
Theorem test_main_prints_FAIL
  (lib : cpp_example_lib_hpp.members) (s s1 : process) (ret_string : string)
  (Hcall : cpp_example_lib_hpp.get_string mkCppExample s = (ret_string, s1))
  (Hne : ret_string <> test_string s1) :
  let line := "FAIL: " ++ ret_string ++ " != " ++ test_string s1 in
  test_cpp_example.main s = (1, with_cout s1 (cout s1 ++ line ++ LF))
  /\ String.prefix "FAIL" line = true
  /\ lf_count (line ++ LF)
     = (lf_count ret_string + lf_count (test_string s1) + 1)%nat.
Proof.
  intros line. split; [|split].
  - rewrite (test_main_fail lib s s1 ret_string Hcall Hne).
    unfold line. repeat rewrite append_assoc. reflexivity.
  - reflexivity.
  - unfold line. repeat rewrite lf_count_append. simpl. lia.
Qed.

Lemma test_main_prints_FAIL_witness :
  "cpp-example-lib Magic: 0" <> test_string process_start
  /\ test_cpp_example.main (lib := tampered) process_start
     = (1, with_cout process_start
             ("FAIL: cpp-example-lib Magic: 0 != cpp-example-lib Magic: 123456789"
              ++ LF)).
Proof.
  assert (Hne : "cpp-example-lib Magic: 0" <> test_string process_start)
    by discriminate.
  split.
  - exact Hne.
  - exact (proj1 (test_main_prints_FAIL tampered process_start process_start
                    "cpp-example-lib Magic: 0" eq_refl Hne)).
Defined.

(** C6: every run of the demonstration program writes the constant string
    and the external version string to standard output, each on its line,
    and returns exit code 0, whatever the external version accessor returns
    and whichever definition of the member functions it is linked with. *)
Theorem cpp_example_main_prints_and_succeeds jcv (s : process) :
  cpp_example.main (lib := cpp_example_lib.linked jcv) s
  = (0, with_cout s (cout s ++ "C++ example linking " ++ test_string s ++ LF
                            ++ "Linking json-c version " ++ jcv tt ++ LF))
  /\ outcome (cpp_example.main (lib := cpp_example_lib.linked jcv) process_start)
     = (0, "C++ example linking cpp-example-lib Magic: 123456789" ++ LF
           ++ "Linking json-c version " ++ jcv tt ++ LF)
  /\ (forall lib : cpp_example_lib_hpp.members,
        fst (cpp_example.main (lib := lib) s) = 0).
Proof.
  split; [apply cpp_example_main_run | split].
  - rewrite cpp_example_main_run. reflexivity.
  - intros lib. unfold cpp_example.main, cpp_example.main_body.
    unfold bind at 1 2 3, cout_put at 1.
    destruct (cpp_example_lib_hpp.get_string mkCppExample _) as [str s1].
    unfold bind at 1 2 3 4, cout_put at 1 2, endl at 1, cout_put at 1.
    destruct (cpp_example_lib_hpp.get_json_c_version mkCppExample _) as [v s2].
    reflexivity.
Qed.

(** C7: within one process, any two calls of [get_string()] return equal
    values, and any two calls of [get_json_c_version()] return equal values,
    at whatever points of the run and on whatever instances they are made. *)
Theorem accessors_idempotent
  jcv (this1 this2 : CppExample) (s1 s2 : process)
  (Hrun1 : reachable jcv s1) (Hrun2 : reachable jcv s2) :
  fst (cpp_example_lib.get_string this1 s1)
  = fst (cpp_example_lib.get_string this2 s2)
  /\ fst (cpp_example_lib.get_json_c_version jcv this1 s1)
     = fst (cpp_example_lib.get_json_c_version jcv this2 s2)
  /\ fst (cpp_example_lib.get_string this2
            (snd (cpp_example_lib.get_string this1 s1)))
     = fst (cpp_example_lib.get_string this1 s1)
  /\ fst (cpp_example_lib.get_json_c_version jcv this2
            (snd (cpp_example_lib.get_json_c_version jcv this1 s1)))
     = fst (cpp_example_lib.get_json_c_version jcv this1 s1).
Proof.
  repeat rewrite get_string_run. repeat rewrite get_json_c_version_run.
  simpl fst. simpl snd.
  rewrite (reachable_test_string jcv s1 Hrun1).
  rewrite (reachable_test_string jcv s2 Hrun2).
  repeat split.
Qed.

Lemma accessors_idempotent_witness :
  fst (cpp_example_lib.get_string mkCppExample process_start)
  = fst (cpp_example_lib.get_string mkCppExample after_demo)
  /\ fst (cpp_example_lib.get_json_c_version json_c_0_17 mkCppExample process_start)
     = fst (cpp_example_lib.get_json_c_version json_c_0_17 mkCppExample after_demo).
Proof.
  pose proof (accessors_idempotent json_c_0_17 mkCppExample mkCppExample
                process_start after_demo (reachable_start json_c_0_17)
                after_demo_reachable) as H.
  split; [exact (proj1 H) | exact (proj1 (proj2 H))].
Defined.

(** C8: [CppExample::test_string] never changes after program start: at every
    point of every run its value is "cpp-example-lib Magic: 123456789", and no
    member function, stream insertion or consumer program leaves it with
    another value. *)
Theorem test_string_never_changes jcv (s : process) (Hrun : reachable jcv s) :
  test_string s = "cpp-example-lib Magic: 123456789"
  /\ (forall s', step jcv s s' -> test_string s' = test_string s).
Proof.
  split.
  - exact (reachable_test_string jcv s Hrun).
  - intros s' Hstep. exact (step_test_string jcv s s' Hstep).
Qed.

Lemma test_string_never_changes_witness :
  reachable json_c_0_17 after_demo
  /\ test_string after_demo = "cpp-example-lib Magic: 123456789".
Proof.
  split.
  - exact after_demo_reachable.
  - exact (proj1 (test_string_never_changes json_c_0_17 after_demo
                    after_demo_reachable)).
Defined.

(** C9: the verification program as written, calling the library's own
    [get_string()], never takes the FAIL branch: in every run the comparison
    yields 0, the program writes the PASS line and nothing else, no line it
    writes begins with FAIL, and its exit code is 0, not 1. *)
Theorem test_main_never_fails jcv (s : process) (Hrun : reachable jcv s) :
  let out :=
    "PASS: cpp-example-lib Magic: 123456789 = cpp-example-lib Magic: 123456789"
    ++ LF in
  string_compare (fst (cpp_example_lib.get_string mkCppExample s)) (test_string s) = 0
  /\ test_cpp_example.main (lib := cpp_example_lib.linked jcv) s
     = (0, with_cout s (cout s ++ out))
  /\ fst (test_cpp_example.main (lib := cpp_example_lib.linked jcv) s) <> 1
  /\ forallb (fun l => negb (String.prefix "FAIL" l)) (lines out) = true.
Proof.
  intros out. rewrite test_cpp_example_main_run, get_string_run.
  rewrite (reachable_test_string jcv s Hrun).
  split; [apply string_compare_refl | split; [reflexivity | split]].
  - simpl. discriminate.
  - reflexivity.
Qed.

Lemma test_main_never_fails_witness :
  reachable json_c_0_17 process_start
  /\ outcome (test_cpp_example.main (lib := cpp_example_lib.linked json_c_0_17)
                process_start)
     = (0, "PASS: cpp-example-lib Magic: 123456789 = cpp-example-lib Magic: 123456789"
           ++ LF).
Proof.
  split.
  - apply reachable_start.
  - rewrite (proj1 (proj2 (test_main_never_fails json_c_0_17 process_start
                             (reachable_start json_c_0_17)))).
    reflexivity.
Defined.

(** A run that inspects the process it starts in tells such processes
    apart; the consumer programs, by the next theorem, do not. *)
Example reads_back_tells_processes_apart :
  test_string process_start = test_string after_demo
  /\ fst (reads_back process_start) = 0
  /\ fst (reads_back after_demo) = 81.
Proof. repeat split. Qed.



(** * Further properties of the consumer programs *)

Lemma lines_from_line (a rest cur : string) :
  lf_count a = 0%nat ->
  lines_from cur (a ++ LF ++ rest) = (cur ++ a) :: lines_from EmptyString rest.
Proof.
  revert cur. induction a as [|ch a IH]; intros cur Hno.
  - simpl. f_equal. clear. induction cur as [|c cur IH]; simpl; congruence.
  - simpl in Hno. destruct (is_LF ch) eqn:E; [discriminate|].
    simpl append at 1. simpl lines_from. rewrite E.
    rewrite (IH _ Hno), append_assoc. reflexivity.
Qed.

Lemma prefix_nil (x : string) : String.prefix EmptyString x = true.
Proof. destruct x; reflexivity. Qed.

Lemma prefix_append (a x : string) : String.prefix a (a ++ x) = true.
Proof.
  induction a as [|ch a IH]; simpl.
  - apply prefix_nil.
  - destruct (ascii_dec ch ch) as [_|Hne]; [exact IH | now elim Hne].
Qed.

Lemma test_main_cases (lib : cpp_example_lib_hpp.members) (s : process) :
  let r := cpp_example_lib_hpp.get_string mkCppExample s in
  (fst r = test_string (snd r)
   /\ test_cpp_example.main s
      = (0, with_cout (snd r) (cout (snd r) ++ "PASS: " ++ fst r ++ " = "
                                      ++ test_string (snd r) ++ LF)))
  \/ (fst r <> test_string (snd r)
      /\ test_cpp_example.main s
         = (1, with_cout (snd r) (cout (snd r) ++ "FAIL: " ++ fst r ++ " != "
                                         ++ test_string (snd r) ++ LF))).
Proof.
  intros r. subst r.
  destruct (cpp_example_lib_hpp.get_string mkCppExample s) as [ret_string s1] eqn:Hcall.
  simpl fst. simpl snd.
  destruct (string_dec ret_string (test_string s1)) as [Heq|Hne].
  - left. split; [exact Heq|]. exact (test_main_pass lib s s1 ret_string Hcall Heq).
  - right. split; [exact Hne|]. exact (test_main_fail lib s s1 ret_string Hcall Hne).
Qed.

(** X1: whatever definition of [get_string()] the verification program is
    linked with, its exit code is 0 exactly when the returned string equals
    [CppExample::test_string], and 1 exactly when it differs. *)
Theorem test_main_exit_code_decides
  (lib : cpp_example_lib_hpp.members) (s : process) :
  let r := cpp_example_lib_hpp.get_string mkCppExample s in
  (fst (test_cpp_example.main s) = 0 <-> fst r = test_string (snd r))
  /\ (fst (test_cpp_example.main s) = 1 <-> fst r <> test_string (snd r)).
Proof.
  intros r. destruct (test_main_cases lib s) as [[Heq Hrun]|[Hne Hrun]];
    fold r in Heq || fold r in Hne; rewrite Hrun; simpl fst.
  - split; split; intros H; try reflexivity; try exact Heq;
      [discriminate | contradiction].
  - split; split; intros H; try reflexivity; try exact Hne;
      [discriminate | contradiction].
Qed.

(** X2: the verdict the verification program prints agrees with its exit
    code: what it appends to standard output begins with "PASS: " and the
    exit code is 0, or begins with "FAIL: " and the exit code is 1. *)
Theorem test_main_verdict_matches_exit_code
  (lib : cpp_example_lib_hpp.members) (s : process) :
  let r := cpp_example_lib_hpp.get_string mkCppExample s in
  exists w : string,
    cout (snd (test_cpp_example.main s)) = cout (snd r) ++ w
    /\ ((fst (test_cpp_example.main s) = 0 /\ String.prefix "PASS: " w = true)
        \/ (fst (test_cpp_example.main s) = 1 /\ String.prefix "FAIL: " w = true)).
Proof.
  intros r. destruct (test_main_cases lib s) as [[_ Hrun]|[_ Hrun]];
    fold r in Hrun; rewrite Hrun; simpl fst; simpl snd; rewrite with_cout_cout.
  - exists ("PASS: " ++ fst r ++ " = " ++ test_string (snd r) ++ LF).
    split; [reflexivity | left; split; [reflexivity | exact (prefix_append "PASS: " _)]].
  - exists ("FAIL: " ++ fst r ++ " != " ++ test_string (snd r) ++ LF).
    split; [reflexivity | right; split; [reflexivity | exact (prefix_append "FAIL: " _)]].
Qed.

(** X3: the verification program never calls [get_json_c_version()]: linked
    with two definitions of the member functions that agree on
    [get_string()], it runs the same, whatever their
    [get_json_c_version()] do. *)
Theorem test_main_ignores_get_json_c_version
  (lib1 lib2 : cpp_example_lib_hpp.members) (s : process)
  (Hsame : forall this s0,
      cpp_example_lib_hpp.get_string (members := lib1) this s0
      = cpp_example_lib_hpp.get_string (members := lib2) this s0) :
  test_cpp_example.main (lib := lib1) s = test_cpp_example.main (lib := lib2) s.
Proof.
  unfold test_cpp_example.main, test_cpp_example.main_body, bind at 1 2.
  unfold bind at 6 7.
  rewrite Hsame. reflexivity.
Qed.

Lemma test_main_ignores_get_json_c_version_witness :
  test_cpp_example.main (lib := cpp_example_lib.linked json_c_0_17) process_start
  = test_cpp_example.main (lib := noisy) process_start.
Proof.
  exact (test_main_ignores_get_json_c_version
           (cpp_example_lib.linked json_c_0_17) noisy process_start
           (fun _ _ => eq_refl)).
Defined.

(** X4: linked with the library, the verification program passes whatever
    text the static data member holds: it compares the member with itself,
    prints [PASS: v = v] and exits with code 0 for every value [v], so it
    checks the linkage and not the value of the constant. *)
Theorem test_main_passes_for_any_constant jcv (v before : string) :
  test_cpp_example.main (lib := cpp_example_lib.linked jcv)
    {| test_string := v; cout := before |}
  = (0, {| test_string := v;
           cout := before ++ "PASS: " ++ v ++ " = " ++ v ++ LF |}).
Proof. rewrite test_cpp_example_main_run. reflexivity. Qed.

(** X5: the consumer programs themselves never write
    [CppExample::test_string]: linked with any definitions of the member
    functions that leave it alone, both programs end with the value it had
    when they started. *)
Theorem consumers_never_write_test_string
  (lib : cpp_example_lib_hpp.members) (s : process)
  (Hget_string : forall this s0,
      test_string (snd (cpp_example_lib_hpp.get_string this s0)) = test_string s0)
  (Hget_version : forall this s0,
      test_string (snd (cpp_example_lib_hpp.get_json_c_version this s0))
      = test_string s0) :
  test_string (snd (cpp_example.main s)) = test_string s
  /\ test_string (snd (test_cpp_example.main s)) = test_string s.
Proof.
  split.
  - unfold cpp_example.main, cpp_example.main_body.
    unfold bind at 1 2 3, cout_put at 1.
    pose proof (Hget_string mkCppExample
                  (with_cout s (cout s ++ "C++ example linking "))) as H1.
    destruct (cpp_example_lib_hpp.get_string mkCppExample _) as [str s1].
    unfold bind at 1 2 3 4, cout_put at 1 2, endl at 1, cout_put at 1.
    match goal with
    | |- context [cpp_example_lib_hpp.get_json_c_version mkCppExample ?p] =>
        pose proof (Hget_version mkCppExample p) as H2;
        destruct (cpp_example_lib_hpp.get_json_c_version mkCppExample p) as [v s2]
    end.
    simpl in *. congruence.
  - destruct (test_main_cases lib s) as [[_ Hrun]|[_ Hrun]];
      rewrite Hrun; simpl snd; rewrite with_cout_test_string;
      apply Hget_string.
Qed.

Lemma consumers_never_write_test_string_witness :
  test_string (snd (cpp_example.main (lib := noisy) other_constant))
  = test_string other_constant
  /\ test_string (snd (test_cpp_example.main (lib := noisy) other_constant))
     = test_string other_constant.
Proof.
  exact (consumers_never_write_test_string noisy other_constant
           (fun _ _ => eq_refl) (fun _ _ => eq_refl)).
Defined.

(** X6: when the external version string contains no line feed, the
    demonstration program writes exactly two complete lines and nothing
    after them: [C++ example linking cpp-example-lib Magic: 123456789], then
    [Linking json-c version] followed by the version. *)
Theorem cpp_example_main_writes_two_lines
  jcv (s : process)
  (Hrun : reachable jcv s) (Hversion : lf_count (jcv tt) = 0%nat) :
  exists w : string,
    cout (snd (cpp_example.main (lib := cpp_example_lib.linked jcv) s))
    = cout s ++ w
    /\ lines w = [ "C++ example linking cpp-example-lib Magic: 123456789";
                   "Linking json-c version " ++ jcv tt;
                   EmptyString ].
Proof.
  exists (("C++ example linking " ++ test_string s) ++ LF
          ++ ("Linking json-c version " ++ jcv tt) ++ LF ++ EmptyString).
  split.
  - rewrite cpp_example_main_run. simpl snd. rewrite with_cout_cout.
    repeat rewrite append_assoc. reflexivity.
  - unfold lines. rewrite (reachable_test_string jcv s Hrun).
    rewrite lines_from_line by reflexivity.
    rewrite lines_from_line
      by (rewrite lf_count_append; rewrite Hversion; reflexivity).
    reflexivity.
Qed.

Lemma cpp_example_main_writes_two_lines_witness :
  lf_count (json_c_0_17 tt) = 0%nat
  /\ lines (cout (snd (cpp_example.main
                         (lib := cpp_example_lib.linked json_c_0_17)
                         process_start)))
     = [ "C++ example linking cpp-example-lib Magic: 123456789";
         "Linking json-c version 0.17";
         EmptyString ].
Proof.
  split; [reflexivity|].
  destruct (cpp_example_main_writes_two_lines json_c_0_17 process_start
              (reachable_start json_c_0_17) eq_refl) as [w [Hout Hlines]].
  simpl (cout process_start ++ w) in Hout.
  rewrite Hout. exact Hlines.
Defined.
